(** * Xray-ECG AI Service: the two HTTP handlers of [ai_service/main.py]

    The service has a liveness route [/health] and a scoring route
    [/predict].  [/predict] reads two uploads, validates them, and answers
    with a probability per class label; which scores it returns is decided
    by the declared file name of the image upload.

    Python values are embedded as follows.
    - [str] is [string]; [bytes] is [list byte]; [int] is [Z].
    - [float] is the kernel's binary64 [float], so a literal such as [0.12]
      denotes the same double as in Python and [>=] is the IEEE comparison.
    - a [dict] is an association list in insertion order, with Python's
      rule that assigning to a present key keeps the key's position.
    - the body handed to [JSONResponse] is a [json] tree.
    - a handler is a computation over the two upload objects (each with a
      read cursor) that either returns or raises. *)

From Stdlib Require Import ZArith List String Ascii Bool Lia Floats.
From Stdlib.Strings Require Import Byte.
Import ListNotations.

Set Warnings "-inexact-float,-register-all".

Local Open Scope string_scope.
Local Open Scope list_scope.

(* ================================================================== *)
(** ** Python strings *)

Module PyStr.

(** [c.lower()] on one character, for the ASCII letters: only [A]..[Z]
    move.  Python also lower-cases letters outside ASCII, which this
    function leaves as they are, so the lower-cased name can differ from
    Python's on such letters.  The name is used for nothing but the three
    substring tests below, and those agree: the only characters outside
    ASCII whose Python lower-casing yields an ASCII letter are U+212A (to
    [k]) and U+0130 (to [i] followed by U+0307), and neither can take part
    in an occurrence of ["image1"], ["image2"] or ["image3"]. *)
Definition lower_char (c : ascii) : ascii :=
  let n := nat_of_ascii c in
  if (65 <=? n)%nat && (n <=? 90)%nat then ascii_of_nat (n + 32) else c.

(** [s.lower()] *)
Fixpoint lower (s : string) : string :=
  match s with
  | EmptyString => EmptyString
  | String c t => String (lower_char c) (lower t)
  end.

(** [sub in s] *)
Fixpoint contains (sub s : string) : bool :=
  String.prefix sub s ||
  match s with
  | EmptyString => false
  | String _ t => contains sub t
  end.

(** [x or ""] for an optional string: [None] and the empty string are
    both falsy. *)
Definition or_empty (x : option string) : string :=
  match x with
  | Some s => s
  | None => ""
  end.

End PyStr.

(* ================================================================== *)
(** ** Python dictionaries with string keys *)

Module PyDict.

Definition dict (V : Type) : Type := list (string * V).

(** [d[k] = v] *)
Fixpoint setitem {V : Type} (d : dict V) (k : string) (v : V) : dict V :=
  match d with
  | [] => [(k, v)]
  | (k', v') :: r =>
      if String.eqb k' k then (k', v) :: r else (k', v') :: setitem r k v
  end.

(** [d.get(k)] *)
Fixpoint get {V : Type} (d : dict V) (k : string) : option V :=
  match d with
  | [] => None
  | (k', v') :: r => if String.eqb k' k then Some v' else get r k
  end.

(** [list(d.keys())] and [list(d.items())] *)
Definition keys {V : Type} (d : dict V) : list string := map fst d.
Definition items {V : Type} (d : dict V) : list (string * V) := d.

(** [{key(x): val(x) for x in xs}] *)
Definition comprehension {A V : Type}
    (key : A -> string) (val : A -> V) (xs : list A) : dict V :=
  fold_left (fun d x => setitem d (key x) (val x)) xs [].

End PyDict.

(* ================================================================== *)
(** ** JSON bodies and responses *)

Inductive json : Type :=
| JBool (b : bool)
| JNumber (x : float)
| JString (s : string)
| JArray (xs : list json)
| JObject (fields : list (string * json)).

Record Response : Type := mkResponse {
  status_code : Z;
  content : json
}.

(** [JSONResponse(body)]: status 200. *)
Definition JSONResponse (body : json) : Response :=
  {| status_code := 200; content := body |}.

(** What Python can raise inside the handlers. *)
Inductive exn : Type :=
| HTTPException (status : Z) (detail : string)
| ValueError (msg : string)
| IndexError
| ImageError.

(** The framework's answer to a handler's outcome: a returned response is
    sent as is, an [HTTPException] becomes a body holding its detail, and
    anything else is a server fault. *)
Definition send (r : exn + Response) : Response :=
  match r with
  | inr resp => resp
  | inl (HTTPException st d) =>
      {| status_code := st; content := JObject [("detail", JString d)] |}
  | inl _ =>
      {| status_code := 500; content := JString "Internal Server Error" |}
  end.

(** What the client receives for
    [HTTPException(status_code=400, detail=d)]. *)
Definition client_error (d : string) : Response :=
  {| status_code := 400; content := JObject [("detail", JString d)] |}.

(** [key in body] for a JSON object. *)
Definition has_key (k : string) (body : json) : bool :=
  match body with
  | JObject fields => existsb (fun kv => String.eqb (fst kv) k) fields
  | _ => false
  end.

(* ================================================================== *)
(** ** Uploads and the handler monad *)

Record UploadFile : Type := mkUpload {
  filename : option string;
  file : list byte;
  cursor : nat
}.

(** The two parameters of [predict]. *)
Record Uploads : Type := mkUploads {
  cxr : UploadFile;
  ecg : UploadFile
}.

(** A handler body: runs over the uploads, returns or raises. *)
Definition M (A : Type) : Type := Uploads -> (exn + A) * Uploads.

Definition ret {A : Type} (a : A) : M A := fun u => (inr a, u).

Definition raise {A : Type} (e : exn) : M A := fun u => (inl e, u).

Definition bind {A B : Type} (m : M A) (k : A -> M B) : M B :=
  fun u =>
    match m u with
    | (inr a, u') => k a u'
    | (inl e, u') => (inl e, u')
    end.

(** [try: m  except Exception: h] *)
Definition try_except {A : Type} (m : M A) (h : exn -> M A) : M A :=
  fun u =>
    match m u with
    | (inr a, u') => (inr a, u')
    | (inl e, u') => h e u'
    end.

Declare Scope handler_scope.
Delimit Scope handler_scope with handler.
Notation "x <- m ;; k" := (bind m (fun x => k))
  (at level 100, m at next level, right associativity) : handler_scope.
Local Open Scope handler_scope.

(** An outcome that needs no upload. *)
Definition lift {A : Type} (r : exn + A) : M A := fun u => (r, u).

(** [await f.read()]: the bytes from the cursor on; the cursor moves to
    the end. *)
Definition read_upload (f : UploadFile) : list byte * UploadFile :=
  (skipn (cursor f) (file f),
   {| filename := filename f; file := file f; cursor := List.length (file f) |}).

Definition read_cxr : M (list byte) :=
  fun u => let (b, f) := read_upload (cxr u) in
           (inr b, {| cxr := f; ecg := ecg u |}).

Definition read_ecg : M (list byte) :=
  fun u => let (b, f) := read_upload (ecg u) in
           (inr b, {| cxr := cxr u; ecg := f |}).

Definition cxr_filename : M (option string) :=
  fun u => (inr (filename (cxr u)), u).

(** [len(b)] *)
Definition len {A : Type} (b : list A) : Z := Z.of_nat (List.length b).

(** [xs[i]] *)
Definition index {A : Type} (xs : list A) (i : nat) : exn + A :=
  match nth_error xs i with
  | Some x => inr x
  | None => inl IndexError
  end.

(** [enumerate(xs)] *)
Definition enumerate {A : Type} (xs : list A) : list (nat * A) :=
  combine (seq 0 (List.length xs)) xs.

(** [[out(x) for x in xs if keep(x)]] where [out] may raise. *)
Fixpoint list_comprehension {A B : Type}
    (keep : A -> bool) (out : A -> exn + B) (xs : list A) : exn + list B :=
  match xs with
  | [] => inr []
  | x :: r =>
      if keep x then
        match out x with
        | inl e => inl e
        | inr y =>
            match list_comprehension keep out r with
            | inl e => inl e
            | inr ys => inr (y :: ys)
            end
        end
      else list_comprehension keep out r
  end.

(** [{k: v for x in xs}] where computing the key may raise. *)
Fixpoint dict_comprehension {A V : Type}
    (entry : A -> exn + (string * V)) (xs : list A) (acc : PyDict.dict V)
    : exn + PyDict.dict V :=
  match xs with
  | [] => inr acc
  | x :: r =>
      match entry x with
      | inl e => inl e
      | inr (k, v) => dict_comprehension entry r (PyDict.setitem acc k v)
      end
  end.

(* ================================================================== *)
(** ** The service *)

Definition CLASS_LABELS : list string :=
  [ "Atelectasis"; "Cardiomegaly"; "Consolidation"; "Edema"; "Effusion";
    "Emphysema"; "Fibrosis"; "Hernia"; "Infiltration"; "Mass";
    "Nodule"; "Pleural_Thickening"; "Pneumonia"; "Pneumothorax" ].

(** [{"finding": k, "confidence_score": float(v)}] *)
Definition finding (k : string) (v : float) : json :=
  JObject [("finding", JString k); ("confidence_score", JNumber v)].

(** A [dict] of floats as a JSON object. *)
Definition json_of_probs (d : PyDict.dict float) : json :=
  JObject (map (fun kv => (fst kv, JNumber (snd kv))) d).

(** [{"success": True, "findings": fs, "probabilities": pm}] *)
Definition envelope (fs : list json) (pm : PyDict.dict float) : json :=
  JObject [("success", JBool true);
           ("findings", JArray fs);
           ("probabilities", json_of_probs pm)].

(** [v >= 0.5] *)
Definition reportable (v : float) : bool := (0.5 <=? v)%float.

(** [[{"finding": k, "confidence_score": float(v)}
      for k, v in pm.items() if v >= 0.5]] *)
Definition findings_of (pm : PyDict.dict float) : list json :=
  map (fun kv => finding (fst kv) (snd kv))
      (filter (fun kv => reportable (snd kv)) (PyDict.items pm)).

(** The closed and the half-open unit interval on doubles. *)
Definition in_unit_interval (v : float) : Prop :=
  (0 <=? v)%float = true /\ (v <=? 1)%float = true.

Definition in_unit_half_open (v : float) : Prop :=
  (0 <=? v)%float = true /\ (v <? 1)%float = true.

(** [GET /health] *)
Definition health : json := JObject [("status", JString "ok")].

(** The seed of the fallback rule. *)
Definition seed_of (cxr_bytes ecg_bytes : list byte) : Z :=
  len cxr_bytes + len ecg_bytes.

(** The canned maps, as the source builds them. *)
Definition abnormal_probs : PyDict.dict float :=
  PyDict.setitem
    (PyDict.setitem
       (PyDict.comprehension (fun l => l) (fun _ => 0.12%float) CLASS_LABELS)
       "Cardiomegaly" 0.92%float)
    "Effusion" 0.78%float.

Definition normal_probs : PyDict.dict float :=
  PyDict.comprehension (fun l => l) (fun _ => 0.08%float) CLASS_LABELS.

(** The requests the application routes. *)
Inductive Request : Type :=
| GET_health
| POST_predict (cxr_name : option string) (cxr_payload : list byte)
               (ecg_name : option string) (ecg_payload : list byte).

(** The uploads as the framework hands them to [predict]: cursors at 0. *)
Definition uploads_of (cxr_name : option string) (cxr_payload : list byte)
    (ecg_name : option string) (ecg_payload : list byte) : Uploads :=
  {| cxr := {| filename := cxr_name; file := cxr_payload; cursor := 0 |};
     ecg := {| filename := ecg_name; file := ecg_payload; cursor := 0 |} |}.

(** A generator for exhibiting the statements below at concrete inputs:
    an image is readable when it starts with the PNG signature bytes
    [89 50 4E 47]; the stream is a 64-bit linear congruential one. *)
Module Demo.

Definition Image : Type := list byte.

Definition open_rgb (b : list byte) : option Image :=
  match b with
  | x89 :: x50 :: x4e :: x47 :: _ => Some b
  | _ => None
  end.

Definition BitGenerator : Type := Z.

Definition default_rng (seed : Z) : BitGenerator := seed.

Definition next_double (g : BitGenerator) : float * BitGenerator :=
  ((if Z.even g then 0.25 else 0.75)%float,
   ((g * 6364136223846793005 + 1442695040888963407) mod 2 ^ 64)%Z).

Definition png : list byte := [x89; x50; x4e; x47; x0d; x0a; x1a; x0a].

Definition npy : list byte := [x93; x4e; x55; x4d; x50; x59].

(** A readable image of 1000 bytes and a signal of 500 bytes. *)
Definition image_1000 : list byte := png ++ repeat x00 992.

Definition signal_500 : list byte := repeat x01 500.

End Demo.

(* ------------------------------------------------------------------ *)
(** The image decoder (Pillow) and the random generator (NumPy) are
    outside the repository; the handlers are written over them. *)

Section Service.

(** [Image.open(io.BytesIO(b)).convert("RGB")]; [None] when it raises. *)
Variable Image : Type.
Variable open_rgb : list byte -> option Image.

(** [np.random.default_rng(seed)] and one draw of [Generator.random]. *)
Variable BitGenerator : Type.
Variable default_rng : Z -> BitGenerator.
Variable next_double : BitGenerator -> float * BitGenerator.

(** [rng.random(n)]: [n] draws, in order. *)
Fixpoint random (g : BitGenerator) (n : nat) : list float * BitGenerator :=
  match n with
  | O => ([], g)
  | S m =>
      let (x, g1) := next_double g in
      let (xs, g2) := random g1 m in
      (x :: xs, g2)
  end.

(** [Image.open(io.BytesIO(b)).convert("RGB")] inside the handler. *)
Definition Image_open_convert (b : list byte) : M Image :=
  match open_rgb b with
  | Some img => ret img
  | None => raise ImageError
  end.

(** [POST /predict] *)
Definition predict : M Response :=
  cxr_bytes <-
    try_except
      (b <- read_cxr ;;
       _ <- Image_open_convert b ;;
       ret b)
      (fun _ => raise (HTTPException 400 "Invalid CXR image")) ;;
  ecg_bytes <-
    try_except
      (b <- read_ecg ;;
       if (len b =? 0)%Z then raise (ValueError "Empty ECG") else ret b)
      (fun _ => raise (HTTPException 400 "Invalid ECG data")) ;;
  fname <- cxr_filename ;;
  let name := PyStr.lower (PyStr.or_empty fname) in
  if PyStr.contains "image1" name || PyStr.contains "image2" name then
    let probs_map := abnormal_probs in
    let findings := findings_of probs_map in
    ret (JSONResponse (envelope findings probs_map))
  else if PyStr.contains "image3" name then
    let probs_map := normal_probs in
    ret (JSONResponse (envelope [] probs_map))
  else
    let seed := seed_of cxr_bytes ecg_bytes in
    let rng := default_rng seed in
    let probs := fst (random rng (List.length CLASS_LABELS)) in
    findings <-
      lift (list_comprehension
              (fun ip => reportable (snd ip))
              (fun ip =>
                 match index CLASS_LABELS (fst ip) with
                 | inl e => inl e
                 | inr l => inr (finding l (snd ip))
                 end)
              (enumerate probs)) ;;
    probs_map <-
      lift (dict_comprehension
              (fun ip =>
                 match index CLASS_LABELS (fst ip) with
                 | inl e => inl e
                 | inr l => inr (l, snd ip)
                 end)
              (enumerate probs) []) ;;
    ret (JSONResponse (envelope findings probs_map)).

(** The application: route, run the handler, send its outcome. *)
Definition handle (r : Request) : Response :=
  match r with
  | GET_health => JSONResponse health
  | POST_predict cn cp en ep =>
      send (fst (predict (uploads_of cn cp en ep)))
  end.

(** A run of the server over a sequence of requests. *)
Definition serve (rs : list Request) : list Response := map handle rs.

(** The file name the dispatch looks at: [(cxr.filename or "").lower()]. *)
Definition dispatch_name (cn : option string) : string :=
  PyStr.lower (PyStr.or_empty cn).

(** The two validation conditions of a [/predict] request. *)
Definition decodable (cp : list byte) : Prop := open_rgb cp <> None.
Definition nonempty (ep : list byte) : Prop := ep <> [].

(** A file name that selects neither canned rule. *)
Definition unmatched (cn : option string) : Prop :=
  PyStr.contains "image1" (dispatch_name cn) = false /\
  PyStr.contains "image2" (dispatch_name cn) = false /\
  PyStr.contains "image3" (dispatch_name cn) = false.

(* ---------------------------------------------------------------- *)
(** *** Comparisons on doubles *)

Lemma ltb_leb (x y : float) : (x <? y)%float = true -> (x <=? y)%float = true.
Proof.
  rewrite ltb_spec, leb_spec. unfold SFltb, SFleb.
  destruct (SFcompare (Prim2SF x) (Prim2SF y)) as [[ | | ]|]; congruence.
Qed.

Lemma half_open_in_unit (v : float) : in_unit_half_open v -> in_unit_interval v.
Proof. intros [H0 H1]. split; [exact H0 | apply ltb_leb, H1]. Qed.

(* ---------------------------------------------------------------- *)
(** *** Dictionaries and comprehensions *)

Lemma setitem_fresh {V : Type} (d : PyDict.dict V) (k : string) (v : V) :
  ~ In k (PyDict.keys d) -> PyDict.setitem d k v = d ++ [(k, v)].
Proof.
  induction d as [|[k' v'] r IH]; simpl; intros Hk; [reflexivity|].
  destruct (String.eqb_spec k' k) as [->|_].
  - exfalso. apply Hk. now left.
  - rewrite IH; [reflexivity|]. intros Hin. apply Hk. now right.
Qed.

Lemma index_app_middle {A : Type} (pre : list A) (x : A) (post : list A) :
  index (pre ++ x :: post) (List.length pre) = inr x.
Proof.
  unfold index. rewrite nth_error_app2 by lia.
  rewrite Nat.sub_diag. reflexivity.
Qed.

(** The filtered list comprehension over [enumerate], read against the
    labels themselves. *)
Lemma findings_comprehension (probs : list float) :
  forall (pre ls : list string),
    List.length probs = List.length ls ->
    list_comprehension
      (fun ip : nat * float => reportable (snd ip))
      (fun ip =>
         match index (pre ++ ls) (fst ip) with
         | inl e => inl e
         | inr l => inr (finding l (snd ip))
         end)
      (combine (seq (List.length pre) (List.length probs)) probs)
    = inr (map (fun kv => finding (fst kv) (snd kv))
               (filter (fun kv : string * float => reportable (snd kv))
                       (combine ls probs))).
Proof.
  induction probs as [|p probs IH]; intros pre ls Hlen.
  - destruct ls; reflexivity.
  - destruct ls as [|l ls]; [discriminate|].
    injection Hlen as Hlen.
    specialize (IH (pre ++ [l]) ls Hlen).
    rewrite <- app_assoc, length_app, Nat.add_1_r in IH. simpl app in IH.
    simpl. rewrite index_app_middle.
    destruct (reportable p); simpl; rewrite IH; reflexivity.
Qed.

(** The dictionary comprehension over [enumerate]: with distinct labels
    every assignment appends. *)
Lemma probs_comprehension (probs : list float) :
  forall (pre ls : list string) (acc : PyDict.dict float),
    List.length probs = List.length ls ->
    NoDup (pre ++ ls) ->
    PyDict.keys acc = pre ->
    dict_comprehension
      (fun ip : nat * float =>
         match index (pre ++ ls) (fst ip) with
         | inl e => inl e
         | inr l => inr (l, snd ip)
         end)
      (combine (seq (List.length pre) (List.length probs)) probs) acc
    = inr (acc ++ combine ls probs).
Proof.
  induction probs as [|p probs IH]; intros pre ls acc Hlen Hnd Hkeys.
  - destruct ls; simpl; rewrite ?app_nil_r; reflexivity.
  - destruct ls as [|l ls]; [discriminate|].
    injection Hlen as Hlen.
    assert (Hfresh : ~ In l (PyDict.keys acc)).
    { rewrite Hkeys. apply NoDup_remove_2 in Hnd.
      intros Hin. apply Hnd. apply in_or_app. now left. }
    specialize (IH (pre ++ [l]) ls (acc ++ [(l, p)]) Hlen).
    rewrite <- app_assoc, length_app, Nat.add_1_r in IH. simpl app in IH.
    simpl. rewrite index_app_middle. rewrite (setitem_fresh _ _ _ Hfresh).
    rewrite IH.
    + rewrite <- app_assoc. reflexivity.
    + exact Hnd.
    + unfold PyDict.keys in *. rewrite map_app, Hkeys. reflexivity.
Qed.

Lemma CLASS_LABELS_NoDup : NoDup CLASS_LABELS.
Proof.
  unfold CLASS_LABELS.
  repeat (constructor; [simpl; intuition discriminate|]). constructor.
Qed.

(* ---------------------------------------------------------------- *)
(** *** The generator *)

Lemma random_length (n : nat) :
  forall g, List.length (fst (random g n)) = n.
Proof.
  induction n as [|n IH]; intros g; simpl; [reflexivity|].
  destruct (next_double g) as [x g1]. specialize (IH g1).
  destruct (random g1 n) as [xs g2]. simpl in *. now rewrite IH.
Qed.

(** Every draw lies in the half-open unit interval. *)
Hypothesis next_double_range :
  forall g, in_unit_half_open (fst (next_double g)).

Lemma random_range (n : nat) :
  forall g, Forall in_unit_half_open (fst (random g n)).
Proof.
  induction n as [|n IH]; intros g; simpl; [constructor|].
  pose proof (next_double_range g) as Hx.
  destruct (next_double g) as [x g1]. specialize (IH g1).
  destruct (random g1 n) as [xs g2]. simpl in *. now constructor.
Qed.

(* ---------------------------------------------------------------- *)
(** *** Running the handler *)

Lemma predict_unreadable cn cp en ep :
  open_rgb cp = None ->
  predict (uploads_of cn cp en ep)
  = (inl (HTTPException 400 "Invalid CXR image"),
     {| cxr := snd (read_upload (cxr (uploads_of cn cp en ep)));
        ecg := ecg (uploads_of cn cp en ep) |}).
Proof.
  intros Hopen.
  unfold predict, bind, try_except, read_cxr, Image_open_convert. simpl.
  rewrite Hopen. reflexivity.
Qed.

Lemma predict_empty_signal cn cp en :
  open_rgb cp <> None ->
  predict (uploads_of cn cp en [])
  = (inl (HTTPException 400 "Invalid ECG data"),
     {| cxr := snd (read_upload (cxr (uploads_of cn cp en [])));
        ecg := snd (read_upload (ecg (uploads_of cn cp en []))) |}).
Proof.
  intros Hopen.
  unfold predict, bind, try_except, read_cxr, read_ecg, Image_open_convert.
  simpl. destruct (open_rgb cp) as [img|]; [reflexivity|congruence].
Qed.

Lemma fallback_findings (probs : list float) :
  List.length probs = List.length CLASS_LABELS ->
  list_comprehension
    (fun ip : nat * float => reportable (snd ip))
    (fun ip =>
       match index CLASS_LABELS (fst ip) with
       | inl e => inl e
       | inr l => inr (finding l (snd ip))
       end)
    (enumerate probs)
  = inr (findings_of (combine CLASS_LABELS probs)).
Proof.
  intros Hlen. exact (findings_comprehension probs [] CLASS_LABELS Hlen).
Qed.

Lemma fallback_probs (probs : list float) :
  List.length probs = List.length CLASS_LABELS ->
  dict_comprehension
    (fun ip : nat * float =>
       match index CLASS_LABELS (fst ip) with
       | inl e => inl e
       | inr l => inr (l, snd ip)
       end)
    (enumerate probs) []
  = inr (combine CLASS_LABELS probs).
Proof.
  intros Hlen.
  exact (probs_comprehension probs [] CLASS_LABELS [] Hlen
           CLASS_LABELS_NoDup eq_refl).
Qed.

(** A request that passes validation is answered from the rule its file
    name selects; both uploads have been read to the end. *)
Lemma predict_valid cn cp en ep :
  open_rgb cp <> None ->
  ep <> [] ->
  let name := PyStr.lower (PyStr.or_empty cn) in
  let pm :=
    if PyStr.contains "image1" name || PyStr.contains "image2" name
    then abnormal_probs
    else if PyStr.contains "image3" name then normal_probs
    else combine CLASS_LABELS
           (fst (random (default_rng (seed_of cp ep))
                        (List.length CLASS_LABELS))) in
  predict (uploads_of cn cp en ep)
  = (inr (JSONResponse (envelope (findings_of pm) pm)),
     {| cxr := snd (read_upload (cxr (uploads_of cn cp en ep)));
        ecg := snd (read_upload (ecg (uploads_of cn cp en ep))) |}).
Proof.
  intros Hopen Hne name pm. subst pm.
  unfold predict, bind, try_except, read_cxr, read_ecg, Image_open_convert,
    cxr_filename, lift, ret.
  cbn [uploads_of cxr ecg read_upload filename file cursor skipn fst snd].
  destruct (open_rgb cp) as [img|]; [|congruence].
  cbn [uploads_of cxr ecg read_upload filename file cursor skipn fst snd raise].
  destruct ep as [|b ep]; [congruence|].
  replace (len (b :: ep) =? 0)%Z with false
    by (symmetry; apply Z.eqb_neq; unfold len; simpl List.length; lia).
  cbn [uploads_of cxr ecg read_upload filename file cursor skipn fst snd].
  fold name.
  destruct (PyStr.contains "image1" name || PyStr.contains "image2" name).
  - reflexivity.
  - destruct (PyStr.contains "image3" name).
    + reflexivity.
    + rewrite (fallback_findings _ (random_length _ _)).
      rewrite (fallback_probs _ (random_length _ _)).
      reflexivity.
Qed.

Lemma handle_valid cn cp en ep :
  decodable cp ->
  nonempty ep ->
  let name := dispatch_name cn in
  let pm :=
    if PyStr.contains "image1" name || PyStr.contains "image2" name
    then abnormal_probs
    else if PyStr.contains "image3" name then normal_probs
    else combine CLASS_LABELS
           (fst (random (default_rng (seed_of cp ep))
                        (List.length CLASS_LABELS))) in
  handle (POST_predict cn cp en ep)
  = JSONResponse (envelope (findings_of pm) pm).
Proof.
  intros Hd Hn name pm. unfold handle.
  rewrite (predict_valid cn cp en ep Hd Hn). reflexivity.
Qed.

Lemma handle_unreadable cn cp en ep :
  open_rgb cp = None ->
  handle (POST_predict cn cp en ep) = client_error "Invalid CXR image".
Proof.
  intros Hopen. unfold handle.
  rewrite (predict_unreadable cn cp en ep Hopen). reflexivity.
Qed.

Lemma handle_empty_signal cn cp en :
  decodable cp ->
  handle (POST_predict cn cp en []) = client_error "Invalid ECG data".
Proof.
  intros Hd. unfold handle.
  rewrite (predict_empty_signal cn cp en Hd). reflexivity.
Qed.


Lemma values_combine {V : Type} (P : V -> Prop) (ls : list string) :
  forall vs : list V,
    Forall P vs -> Forall (fun kv => P (snd kv)) (combine ls vs).
Proof.
  induction ls as [|l ls IH]; intros vs Hvs; simpl; [constructor|].
  destruct Hvs as [|v vs Hv Hvs]; constructor; [exact Hv|]. now apply IH.
Qed.

Lemma combine_map_snd {A B C : Type} (f : B -> C) (ks : list A) :
  forall vs : list B,
    map (fun kv => (fst kv, f (snd kv))) (combine ks vs) = combine ks (map f vs).
Proof.
  induction ks as [|k ks IH]; intros [|v vs]; simpl; try reflexivity.
  now rewrite IH.
Qed.

(* ---------------------------------------------------------------- *)
(** *** The response of a valid request *)

(** C1.  A request with a decodable image and a non-empty signal is
    answered with status 200 and a body whose [success] is true and whose
    [probabilities] object has exactly 14 entries: the 14 class labels as
    keys, once each and in the order of the label list, each with a number
    in the closed unit interval.  This holds whichever scoring rule the
    file name selects. *)
Theorem predict_probability_map cn cp en ep :
  decodable cp ->
  nonempty ep ->
  exists (fs : list json) (vs : list float),
    handle (POST_predict cn cp en ep)
    = {| status_code := 200;
         content :=
           JObject
             [("success", JBool true);
              ("findings", JArray fs);
              ("probabilities",
               JObject
                 (combine
                    ["Atelectasis"; "Cardiomegaly"; "Consolidation"; "Edema"; "Effusion";
                    "Emphysema"; "Fibrosis"; "Hernia"; "Infiltration"; "Mass";
                    "Nodule"; "Pleural_Thickening"; "Pneumonia"; "Pneumothorax"]
                    (map JNumber vs)))] |}
    /\ List.length vs = 14%nat
    /\ Forall (fun v => (0 <=? v)%float = true /\ (v <=? 1)%float = true) vs.
Proof.
  intros Hd Hn. rewrite (handle_valid cn cp en ep Hd Hn).
  set (name := dispatch_name cn).
  destruct (PyStr.contains "image1" name || PyStr.contains "image2" name).
  - exists (findings_of abnormal_probs), (map snd abnormal_probs).
    split; [reflexivity|]. split; [reflexivity|].
    vm_compute. repeat constructor.
  - destruct (PyStr.contains "image3" name).
    + exists (findings_of normal_probs), (map snd normal_probs).
      split; [reflexivity|]. split; [reflexivity|].
      vm_compute. repeat constructor.
    + eexists _, _. split.
      { unfold JSONResponse, envelope, json_of_probs.
        rewrite combine_map_snd. reflexivity. }
      split; [apply random_length|].
      eapply Forall_impl; [|apply random_range].
      intros v Hv. exact (half_open_in_unit v Hv).
Qed.

(** C2.  In the response to a valid request the [findings] array is the
    [probabilities] entries whose value is at least 0.5, in the same
    order, each turned into a finding that carries the label and, as
    [confidence_score], the very value of the entry; this holds on the
    two canned rules and on the fallback rule. *)
Theorem predict_findings_are_filtered_probabilities cn cp en ep :
  decodable cp ->
  nonempty ep ->
  exists pm : list (string * float),
    handle (POST_predict cn cp en ep)
    = {| status_code := 200;
         content :=
           JObject
             [("success", JBool true);
              ("findings",
               JArray
                 (map (fun kv =>
                         JObject [("finding", JString (fst kv));
                                  ("confidence_score", JNumber (snd kv))])
                      (filter (fun kv => (0.5 <=? snd kv)%float) pm)));
              ("probabilities",
               JObject (map (fun kv => (fst kv, JNumber (snd kv))) pm))] |}.
Proof.
  intros Hd Hn. rewrite (handle_valid cn cp en ep Hd Hn).
  eexists. reflexivity.
Qed.

(* ---------------------------------------------------------------- *)
(** *** The canned rules *)

(** C3.  For a valid request whose lower-cased image file name contains
    ["image1"] or ["image2"], the probabilities are 0.92 for
    Cardiomegaly, 0.78 for Effusion and 0.12 for the other twelve labels,
    and the findings are Cardiomegaly (0.92) then Effusion (0.78); the
    file name ["chest_image1.png"] is such a name. *)
Theorem predict_abnormal_case cp en ep :
  decodable cp ->
  nonempty ep ->
  let canned :=
    {| status_code := 200;
       content :=
         JObject
           [("success", JBool true);
            ("findings",
             JArray
               [JObject [("finding", JString "Cardiomegaly");
                         ("confidence_score", JNumber 0.92)];
                JObject [("finding", JString "Effusion");
                         ("confidence_score", JNumber 0.78)]]);
            ("probabilities",
             JObject
               [("Atelectasis", JNumber 0.12);
                 ("Cardiomegaly", JNumber 0.92);
                 ("Consolidation", JNumber 0.12);
                 ("Edema", JNumber 0.12);
                 ("Effusion", JNumber 0.78);
                 ("Emphysema", JNumber 0.12);
                 ("Fibrosis", JNumber 0.12);
                 ("Hernia", JNumber 0.12);
                 ("Infiltration", JNumber 0.12);
                 ("Mass", JNumber 0.12);
                 ("Nodule", JNumber 0.12);
                 ("Pleural_Thickening", JNumber 0.12);
                 ("Pneumonia", JNumber 0.12);
                 ("Pneumothorax", JNumber 0.12)])] |} in
  (forall cn,
      PyStr.contains "image1" (dispatch_name cn) = true \/
      PyStr.contains "image2" (dispatch_name cn) = true ->
      handle (POST_predict cn cp en ep) = canned)
  /\ handle (POST_predict (Some "chest_image1.png") cp en ep) = canned.
Proof.
  intros Hd Hn canned.
  assert (Hgen : forall cn,
             PyStr.contains "image1" (dispatch_name cn) = true \/
             PyStr.contains "image2" (dispatch_name cn) = true ->
             handle (POST_predict cn cp en ep) = canned).
  { intros cn Hname. rewrite (handle_valid cn cp en ep Hd Hn).
    apply orb_true_iff in Hname. rewrite Hname. reflexivity. }
  split; [exact Hgen|]. apply Hgen. left. reflexivity.
Qed.

(** C4.  For a valid request whose lower-cased image file name contains
    ["image3"] and neither ["image1"] nor ["image2"], all 14
    probabilities are 0.08 and the findings are empty; the file name
    ["scan_image3.jpg"] is such a name. *)
Theorem predict_normal_case cp en ep :
  decodable cp ->
  nonempty ep ->
  let canned :=
    {| status_code := 200;
       content :=
         JObject
           [("success", JBool true);
            ("findings", JArray []);
            ("probabilities",
             JObject
               [("Atelectasis", JNumber 0.08);
                 ("Cardiomegaly", JNumber 0.08);
                 ("Consolidation", JNumber 0.08);
                 ("Edema", JNumber 0.08);
                 ("Effusion", JNumber 0.08);
                 ("Emphysema", JNumber 0.08);
                 ("Fibrosis", JNumber 0.08);
                 ("Hernia", JNumber 0.08);
                 ("Infiltration", JNumber 0.08);
                 ("Mass", JNumber 0.08);
                 ("Nodule", JNumber 0.08);
                 ("Pleural_Thickening", JNumber 0.08);
                 ("Pneumonia", JNumber 0.08);
                 ("Pneumothorax", JNumber 0.08)])] |} in
  (forall cn,
      PyStr.contains "image3" (dispatch_name cn) = true ->
      PyStr.contains "image1" (dispatch_name cn) = false ->
      PyStr.contains "image2" (dispatch_name cn) = false ->
      handle (POST_predict cn cp en ep) = canned)
  /\ handle (POST_predict (Some "scan_image3.jpg") cp en ep) = canned.
Proof.
  intros Hd Hn canned.
  assert (Hgen : forall cn,
             PyStr.contains "image3" (dispatch_name cn) = true ->
             PyStr.contains "image1" (dispatch_name cn) = false ->
             PyStr.contains "image2" (dispatch_name cn) = false ->
             handle (POST_predict cn cp en ep) = canned).
  { intros cn H3 H1 H2. rewrite (handle_valid cn cp en ep Hd Hn).
    rewrite H1, H2, H3. reflexivity. }
  split; [exact Hgen|]. apply Hgen; reflexivity.
Qed.

(* ---------------------------------------------------------------- *)
(** *** The fallback rule *)

Lemma get_combine {V : Type} (ls : list string) :
  forall (vs : list V) (i : nat) (l : string),
    NoDup ls ->
    List.length vs = List.length ls ->
    nth_error ls i = Some l ->
    PyDict.get (combine ls vs) l = nth_error vs i.
Proof.
  induction ls as [|k ls IH]; intros vs i l Hnd Hlen Hi.
  - destruct i; discriminate.
  - destruct vs as [|v vs]; [discriminate|]. injection Hlen as Hlen.
    inversion Hnd as [|? ? Hk Hnd']; subst. simpl.
    destruct i as [|i]; simpl in Hi.
    + injection Hi as ->. now rewrite String.eqb_refl.
    + destruct (String.eqb_spec k l) as [->|_].
      * exfalso. apply Hk. eapply nth_error_In, Hi.
      * simpl. now apply IH.
Qed.

Lemma handle_fallback cn cp en ep :
  decodable cp ->
  nonempty ep ->
  unmatched cn ->
  let pm :=
    combine CLASS_LABELS
      (fst (random (default_rng (seed_of cp ep)) (List.length CLASS_LABELS))) in
  handle (POST_predict cn cp en ep)
  = JSONResponse (envelope (findings_of pm) pm).
Proof.
  intros Hd Hn (H1 & H2 & H3) pm.
  rewrite (handle_valid cn cp en ep Hd Hn). rewrite H1, H2, H3. reflexivity.
Qed.

(** C5.  For a valid request whose image file name selects no canned
    rule, the seed is the byte length of the image payload plus that of
    the signal payload, the generator made from that seed is drawn from
    14 times, and draw [i], a double in [0,1), is the probability of label
    [i]; the findings are the entries of at least 0.5.  Hence a second
    such request whose two payloads have the same lengths gets the same
    response; payloads of 1000 and 500 bytes are answered from seed 1500;
    a missing file name is answered by this rule. *)
Theorem predict_fallback_case cn cp en ep :
  decodable cp ->
  nonempty ep ->
  unmatched cn ->
  let labels :=
    ["Atelectasis"; "Cardiomegaly"; "Consolidation"; "Edema"; "Effusion";
     "Emphysema"; "Fibrosis"; "Hernia"; "Infiltration"; "Mass";
     "Nodule"; "Pleural_Thickening"; "Pneumonia"; "Pneumothorax"] in
  let response_of := fun draws : list float =>
    {| status_code := 200;
       content :=
         JObject
           [("success", JBool true);
            ("findings",
             JArray
               (map (fun kv =>
                       JObject [("finding", JString (fst kv));
                                ("confidence_score", JNumber (snd kv))])
                    (filter (fun kv => (0.5 <=? snd kv)%float)
                            (combine labels draws))));
            ("probabilities",
             JObject (combine labels (map JNumber draws)))] |} in
  let seed := (Z.of_nat (List.length cp) + Z.of_nat (List.length ep))%Z in
  let draws := fst (random (default_rng seed) 14) in
  handle (POST_predict cn cp en ep) = response_of draws
  /\ List.length draws = 14%nat
  /\ Forall (fun d => (0 <=? d)%float = true /\ (d <? 1)%float = true) draws
  /\ (forall cn' cp' en' ep',
        decodable cp' ->
        nonempty ep' ->
        unmatched cn' ->
        List.length cp' = List.length cp ->
        List.length ep' = List.length ep ->
        handle (POST_predict cn' cp' en' ep')
        = handle (POST_predict cn cp en ep))
  /\ (Z.of_nat (List.length cp) = 1000%Z ->
      Z.of_nat (List.length ep) = 500%Z ->
      handle (POST_predict cn cp en ep)
      = response_of (fst (random (default_rng 1500%Z) 14)))
  /\ handle (POST_predict None cp en ep) = response_of draws.
Proof.
  intros Hd Hn Hu labels response_of seed draws.
  assert (Hresp : forall cn0,
             unmatched cn0 ->
             handle (POST_predict cn0 cp en ep) = response_of draws).
  { intros cn0 Hu0. rewrite (handle_fallback cn0 cp en ep Hd Hn Hu0).
    unfold JSONResponse, envelope, json_of_probs.
    rewrite combine_map_snd. reflexivity. }
  split; [exact (Hresp cn Hu)|].
  split; [apply random_length|].
  split; [apply random_range|].
  split.
  { intros cn' cp' en' ep' Hd' Hn' Hu' Hc He.
    rewrite (handle_fallback cn' cp' en' ep' Hd' Hn' Hu').
    rewrite (handle_fallback cn cp en ep Hd Hn Hu).
    unfold seed_of, len. rewrite Hc, He. reflexivity. }
  split.
  { intros Hc He. rewrite (Hresp cn Hu). subst draws seed.
    rewrite Hc, He. reflexivity. }
  apply Hresp. repeat split.
Qed.

(* ---------------------------------------------------------------- *)
(** *** Validation *)

Lemma handle_predict_cases cn cp en ep :
  (open_rgb cp = None /\
   handle (POST_predict cn cp en ep) = client_error "Invalid CXR image")
  \/ (decodable cp /\ ep = [] /\
      handle (POST_predict cn cp en ep) = client_error "Invalid ECG data")
  \/ (decodable cp /\ nonempty ep /\
      status_code (handle (POST_predict cn cp en ep)) = 200%Z).
Proof.
  destruct (open_rgb cp) as [img|] eqn:Hopen.
  - assert (Hd : decodable cp) by (unfold decodable; congruence).
    right. destruct ep as [|b ep].
    + left. repeat split; [exact Hd|]. apply handle_empty_signal, Hd.
    + right. assert (Hn : nonempty (b :: ep)) by discriminate.
      repeat split; [exact Hd|exact Hn|].
      rewrite (handle_valid cn cp en (b :: ep) Hd Hn). reflexivity.
  - left. split; [reflexivity|]. now apply handle_unreadable.
Qed.

(** C6.  Validation is ordered and stops at the first failure.  An image
    payload that does not decode is answered with status 400 and detail
    ["Invalid CXR image"], the signal upload is left unread, and the
    answer is the same for every signal upload.  With a decodable image,
    the answer is status 400 with detail ["Invalid ECG data"] exactly
    when the signal payload has length zero.  A response that is not a
    success has a body holding the detail string alone, without
    probabilities or findings. *)
Theorem predict_validation_order cn cp en ep :
  let req := POST_predict cn cp en ep in
  let u := uploads_of cn cp en ep in
  (open_rgb cp = None ->
     handle req = {| status_code := 400;
                     content := JObject [("detail",
                                          JString "Invalid CXR image")] |}
     /\ ecg (snd (predict u)) = ecg u
     /\ cursor (ecg (snd (predict u))) = 0%nat
     /\ forall en' ep', handle (POST_predict cn cp en' ep') = handle req)
  /\ (decodable cp ->
        (handle req = {| status_code := 400;
                         content := JObject [("detail",
                                              JString "Invalid ECG data")] |}
         <-> List.length ep = 0%nat))
  /\ (status_code (handle req) <> 200%Z ->
        exists d,
          content (handle req) = JObject [("detail", JString d)]
          /\ has_key "probabilities" (content (handle req)) = false
          /\ has_key "findings" (content (handle req)) = false).
Proof.
  intros req u. subst req u. split; [|split].
  - intros Hopen. rewrite (predict_unreadable cn cp en ep Hopen).
    split; [now apply handle_unreadable|].
    split; [reflexivity|]. split; [reflexivity|].
    intros en' ep'. now rewrite !handle_unreadable.
  - intros Hd. split.
    + intros Heq. destruct ep as [|b ep]; [reflexivity|].
      assert (Hn : nonempty (b :: ep)) by discriminate.
      rewrite (handle_valid cn cp en (b :: ep) Hd Hn) in Heq.
      discriminate Heq.
    + intros Hlen. destruct ep as [|b ep]; [|discriminate].
      now apply handle_empty_signal.
  - intros Hst.
    destruct (handle_predict_cases cn cp en ep)
      as [[_ Hr]|[(_ & _ & Hr)|(_ & _ & Hr)]].
    + exists "Invalid CXR image". rewrite Hr. repeat split.
    + exists "Invalid ECG data". rewrite Hr. repeat split.
    + contradiction.
Qed.

(** C10.  Validation comes before the dispatch on the file name.  Whatever
    the image file name, canned or not, a request whose image payload
    does not decode is answered with the 400 response for the image, and
    a request with a decodable image and an empty signal payload with the
    400 response for the signal; in both cases the handler raised and the
    body carries no probability map. *)
Theorem predict_validation_before_dispatch cn cp en ep :
  open_rgb cp = None \/ ep = [] ->
  exists d,
    fst (predict (uploads_of cn cp en ep)) = inl (HTTPException 400 d)
    /\ handle (POST_predict cn cp en ep)
       = {| status_code := 400;
            content := JObject [("detail", JString d)] |}
    /\ has_key "probabilities" (content (handle (POST_predict cn cp en ep)))
       = false
    /\ (open_rgb cp = None -> d = "Invalid CXR image")
    /\ (decodable cp -> d = "Invalid ECG data").
Proof.
  intros Hbad. destruct (open_rgb cp) as [img|] eqn:Hopen.
  - destruct Hbad as [Hbad| ->]; [discriminate|].
    assert (Hd : decodable cp) by (unfold decodable; congruence).
    exists "Invalid ECG data". unfold handle.
    rewrite (predict_empty_signal cn cp en Hd).
    repeat split. intros Hcontra. discriminate.
  - exists "Invalid CXR image". unfold handle.
    rewrite (predict_unreadable cn cp en ep Hopen).
    repeat split. intros Hd. exfalso. apply Hd. exact Hopen.
Qed.

(* ---------------------------------------------------------------- *)
(** *** Dependence on the inputs *)

Lemma handle_ignores_signal_name cn cp ep en1 en2 :
  handle (POST_predict cn cp en1 ep) = handle (POST_predict cn cp en2 ep).
Proof.
  destruct (open_rgb cp) as [img|] eqn:Hopen.
  - assert (Hd : decodable cp) by (unfold decodable; congruence).
    destruct ep as [|b ep].
    + now rewrite !handle_empty_signal.
    + assert (Hn : nonempty (b :: ep)) by discriminate.
      now rewrite !handle_valid.
  - now rewrite !handle_unreadable.
Qed.

Lemma serve_nth (before after : list Request) (r : Request) :
  nth_error (serve (before ++ r :: after)) (List.length before)
  = Some (handle r).
Proof.
  unfold serve. rewrite map_app. simpl.
  rewrite nth_error_app2 by (rewrite length_map; lia).
  rewrite length_map, Nat.sub_diag. reflexivity.
Qed.

(** C8.  [/health] takes no input and is answered with status 200 and
    the body [{"status": "ok"}], at every place of every run of the
    server. *)
Theorem health_always_ok before after :
  nth_error (serve (before ++ GET_health :: after)) (List.length before)
  = Some {| status_code := 200;
            content := JObject [("status", JString "ok")] |}.
Proof. rewrite serve_nth. reflexivity. Qed.

(** C9.  On a canned file name the response does not depend on the
    payloads: two valid requests with the same image file name, one that
    contains ["image1"], ["image2"] or ["image3"] once lower-cased, get
    the same response, whatever their image bytes, signal bytes, payload
    lengths and signal file names. *)
Theorem canned_response_ignores_payloads cn cp en ep cp' en' ep' :
  decodable cp ->
  nonempty ep ->
  decodable cp' ->
  nonempty ep' ->
  PyStr.contains "image1" (dispatch_name cn) = true \/
  PyStr.contains "image2" (dispatch_name cn) = true \/
  PyStr.contains "image3" (dispatch_name cn) = true ->
  handle (POST_predict cn cp en ep) = handle (POST_predict cn cp' en' ep').
Proof.
  intros Hd Hn Hd' Hn' Hname.
  rewrite (handle_valid cn cp en ep Hd Hn).
  rewrite (handle_valid cn cp' en' ep' Hd' Hn').
  destruct (PyStr.contains "image1" (dispatch_name cn)
            || PyStr.contains "image2" (dispatch_name cn)) eqn:H12;
    [reflexivity|].
  apply orb_false_iff in H12. destruct H12 as [H1 H2].
  destruct Hname as [H|[H|H]]; try congruence.
  rewrite H. reflexivity.
Qed.

(* ---------------------------------------------------------------- *)
(** *** Further properties of the handlers *)

Lemma lower_char_idempotent (c : ascii) :
  PyStr.lower_char (PyStr.lower_char c) = PyStr.lower_char c.
Proof. destruct c as [[] [] [] [] [] [] [] []]; reflexivity. Qed.

Lemma lower_idempotent (s : string) : PyStr.lower (PyStr.lower s) = PyStr.lower s.
Proof.
  induction s as [|c s IH]; simpl; [reflexivity|].
  now rewrite lower_char_idempotent, IH.
Qed.

Lemma handle_by_dispatch_name cn cn' cp en ep :
  dispatch_name cn = dispatch_name cn' ->
  handle (POST_predict cn cp en ep) = handle (POST_predict cn' cp en ep).
Proof.
  intros Hname. destruct (open_rgb cp) as [img|] eqn:Hopen.
  - assert (Hd : decodable cp) by (unfold decodable; congruence).
    destruct ep as [|b ep].
    + now rewrite !handle_empty_signal.
    + assert (Hn : nonempty (b :: ep)) by discriminate.
      rewrite (handle_valid cn cp en (b :: ep) Hd Hn).
      rewrite (handle_valid cn' cp en (b :: ep) Hd Hn).
      rewrite Hname. reflexivity.
  - now rewrite !handle_unreadable.
Qed.

(** X1.  The status of a [/predict] response is 200 or 400 and never 500:
    it is 200 exactly when the image decodes and the signal is not empty,
    and 400 exactly when the image does not decode or the signal is empty.
    In particular the look-ups [CLASS_LABELS[i]] of the fallback rule never
    run out of range. *)
Theorem predict_status_characterised cn cp en ep :
  (status_code (handle (POST_predict cn cp en ep)) = 200%Z
   <-> decodable cp /\ nonempty ep)
  /\ (status_code (handle (POST_predict cn cp en ep)) = 400%Z
      <-> open_rgb cp = None \/ ep = [])
  /\ status_code (handle (POST_predict cn cp en ep)) <> 500%Z.
Proof.
  destruct (handle_predict_cases cn cp en ep)
    as [[Hopen Hr]|[(Hd & He & Hr)|(Hd & Hn & Hr)]]; rewrite Hr.
  - split; [|split].
    + split; [discriminate|]. intros [Hd _]. exfalso. apply Hd, Hopen.
    + split; [now left|reflexivity].
    + discriminate.
  - split; [|split].
    + split; [discriminate|]. intros [_ Hn]. exfalso. apply Hn, He.
    + split; [now right|reflexivity].
    + discriminate.
  - split; [|split].
    + split; [now split|reflexivity].
    + split; [discriminate|]. intros [Hopen|He]; exfalso.
      * apply Hd, Hopen.
      * apply Hn, He.
    + discriminate.
Qed.

(** X2.  The dispatch does not look at the case of the ASCII letters of
    the image file name: two requests whose image file names become equal
    once the letters [A]..[Z] are replaced by [a]..[z] get the same
    response, valid or not.  So a name may be replaced by the name with
    its ASCII letters lower-cased, and a missing name behaves as the empty
    name. *)
Theorem predict_case_insensitive cn cn' cp en ep :
  dispatch_name cn = dispatch_name cn' ->
  handle (POST_predict cn cp en ep) = handle (POST_predict cn' cp en ep)
  /\ handle (POST_predict (Some (PyStr.lower (PyStr.or_empty cn))) cp en ep)
     = handle (POST_predict cn cp en ep)
  /\ handle (POST_predict None cp en ep)
     = handle (POST_predict (Some "") cp en ep).
Proof.
  intros Hname. split; [now apply handle_by_dispatch_name|]. split.
  - apply handle_by_dispatch_name. unfold dispatch_name. simpl.
    apply lower_idempotent.
  - apply handle_by_dispatch_name. reflexivity.
Qed.

(** X3.  On the fallback rule only the total number of payload bytes
    matters: two valid requests with unmatched file names whose image and
    signal lengths have the same sum get the same response, even when the
    lengths differ one by one.  The seed handed to the generator is at
    least 1. *)
Theorem fallback_depends_on_total_length cn cp en ep cn' cp' en' ep' :
  decodable cp -> nonempty ep -> unmatched cn ->
  decodable cp' -> nonempty ep' -> unmatched cn' ->
  (List.length cp + List.length ep = List.length cp' + List.length ep')%nat ->
  handle (POST_predict cn cp en ep) = handle (POST_predict cn' cp' en' ep')
  /\ (1 <= seed_of cp ep)%Z.
Proof.
  intros Hd Hn Hu Hd' Hn' Hu' Hsum.
  assert (Hseed : seed_of cp ep = seed_of cp' ep') by (unfold seed_of, len; lia).
  split.
  - rewrite (handle_fallback cn cp en ep Hd Hn Hu).
    rewrite (handle_fallback cn' cp' en' ep' Hd' Hn' Hu').
    rewrite Hseed. reflexivity.
  - unfold seed_of, len. destruct ep as [|b ep]; [now contradiction Hn|].
    simpl List.length. lia.
Qed.





End Service.

Arguments random {BitGenerator} next_double g n.
Arguments predict {Image} open_rgb {BitGenerator} default_rng next_double.
Arguments handle {Image} open_rgb {BitGenerator} default_rng next_double r.
Arguments serve {Image} open_rgb {BitGenerator} default_rng next_double rs.
Arguments decodable {Image} open_rgb cp.

(* ================================================================== *)
(** ** The statements at concrete requests *)

Local Abbreviation demo_handle :=
  (handle Demo.open_rgb Demo.default_rng Demo.next_double).

Lemma demo_next_double_range :
  forall g, in_unit_half_open (fst (Demo.next_double g)).
Proof.
  intros g. unfold Demo.next_double. simpl.
  destruct (Z.even g); split; reflexivity.
Qed.

Ltac demo_valid :=
  first [ unfold decodable; simpl; discriminate
        | unfold nonempty; simpl; discriminate ].

Lemma predict_probability_map_witness :
  decodable Demo.open_rgb Demo.png
  /\ nonempty Demo.npy
  /\ exists (fs : list json) (vs : list float),
       demo_handle (POST_predict (Some "random.bmp") Demo.png
                                 (Some "ecg.npy") Demo.npy)
       = {| status_code := 200;
            content :=
              JObject
                [("success", JBool true);
                 ("findings", JArray fs);
                 ("probabilities",
                  JObject (combine CLASS_LABELS (map JNumber vs)))] |}
       /\ List.length vs = 14%nat
       /\ Forall in_unit_interval vs.
Proof.
  assert (Hd : decodable Demo.open_rgb Demo.png) by demo_valid.
  assert (Hn : nonempty Demo.npy) by demo_valid.
  split; [exact Hd|]. split; [exact Hn|].
  exact (predict_probability_map Demo.Image Demo.open_rgb
           Demo.BitGenerator Demo.default_rng Demo.next_double
           demo_next_double_range
           (Some "random.bmp") Demo.png (Some "ecg.npy") Demo.npy Hd Hn).
Defined.

Lemma predict_findings_are_filtered_probabilities_witness :
  decodable Demo.open_rgb Demo.png
  /\ nonempty Demo.npy
  /\ exists pm : PyDict.dict float,
       demo_handle (POST_predict None Demo.png (Some "ecg.npy") Demo.npy)
       = JSONResponse (envelope (findings_of pm) pm).
Proof.
  assert (Hd : decodable Demo.open_rgb Demo.png) by demo_valid.
  assert (Hn : nonempty Demo.npy) by demo_valid.
  split; [exact Hd|]. split; [exact Hn|].
  exact (predict_findings_are_filtered_probabilities
           Demo.Image Demo.open_rgb
           Demo.BitGenerator Demo.default_rng Demo.next_double
           None Demo.png (Some "ecg.npy") Demo.npy Hd Hn).
Defined.

Lemma predict_abnormal_case_witness :
  decodable Demo.open_rgb Demo.png
  /\ nonempty Demo.npy
  /\ PyStr.contains "image2" (dispatch_name (Some "Scan_IMAGE2.PNG")) = true
  /\ demo_handle (POST_predict (Some "Scan_IMAGE2.PNG") Demo.png
                               (Some "ecg.npy") Demo.npy)
     = JSONResponse
         (envelope [finding "Cardiomegaly" 0.92; finding "Effusion" 0.78]
                   abnormal_probs).
Proof.
  assert (Hd : decodable Demo.open_rgb Demo.png) by demo_valid.
  assert (Hn : nonempty Demo.npy) by demo_valid.
  split; [exact Hd|]. split; [exact Hn|]. split; [reflexivity|].
  apply (proj1 (predict_abnormal_case
                  Demo.Image Demo.open_rgb
                  Demo.BitGenerator Demo.default_rng Demo.next_double
                  Demo.png (Some "ecg.npy") Demo.npy Hd Hn)).
  right. reflexivity.
Defined.

Lemma predict_normal_case_witness :
  decodable Demo.open_rgb Demo.png
  /\ nonempty Demo.npy
  /\ PyStr.contains "image3" (dispatch_name (Some "IMAGE3.JPG")) = true
  /\ demo_handle (POST_predict (Some "IMAGE3.JPG") Demo.png None Demo.npy)
     = JSONResponse (envelope [] normal_probs).
Proof.
  assert (Hd : decodable Demo.open_rgb Demo.png) by demo_valid.
  assert (Hn : nonempty Demo.npy) by demo_valid.
  split; [exact Hd|]. split; [exact Hn|]. split; [reflexivity|].
  apply (proj1 (predict_normal_case
                  Demo.Image Demo.open_rgb
                  Demo.BitGenerator Demo.default_rng Demo.next_double
                  Demo.png None Demo.npy Hd Hn)); reflexivity.
Defined.

Lemma predict_fallback_case_witness :
  decodable Demo.open_rgb Demo.image_1000
  /\ nonempty Demo.signal_500
  /\ unmatched (Some "random.bmp")
  /\ demo_handle (POST_predict (Some "random.bmp") Demo.image_1000
                               None Demo.signal_500)
     = JSONResponse
         (envelope
            (findings_of
               (combine CLASS_LABELS
                  (fst (random Demo.next_double (Demo.default_rng 1500) 14))))
            (combine CLASS_LABELS
               (fst (random Demo.next_double (Demo.default_rng 1500) 14)))).
Proof.
  assert (Hd : decodable Demo.open_rgb Demo.image_1000) by demo_valid.
  assert (Hn : nonempty Demo.signal_500) by demo_valid.
  assert (Hu : unmatched (Some "random.bmp")) by (repeat split).
  destruct (predict_fallback_case
              Demo.Image Demo.open_rgb
              Demo.BitGenerator Demo.default_rng Demo.next_double
              demo_next_double_range
              (Some "random.bmp") Demo.image_1000 None Demo.signal_500
              Hd Hn Hu)
    as (_ & _ & _ & _ & Hseed & _).
  split; [exact Hd|]. split; [exact Hn|]. split; [exact Hu|].
  rewrite (Hseed eq_refl eq_refl). reflexivity.
Defined.

Lemma predict_validation_before_dispatch_witness :
  Demo.open_rgb Demo.npy = None
  /\ demo_handle (POST_predict (Some "chest_image1.png") Demo.npy
                               (Some "ecg.npy") Demo.npy)
     = client_error "Invalid CXR image".
Proof.
  assert (Hopen : Demo.open_rgb Demo.npy = None) by reflexivity.
  destruct (predict_validation_before_dispatch
              Demo.Image Demo.open_rgb
              Demo.BitGenerator Demo.default_rng Demo.next_double
              (Some "chest_image1.png") Demo.npy (Some "ecg.npy") Demo.npy
              (or_introl Hopen))
    as (d & _ & Hresp & _ & Hdetail & _).
  split; [exact Hopen|]. rewrite Hresp, (Hdetail Hopen). reflexivity.
Defined.

Lemma canned_response_ignores_payloads_witness :
  decodable Demo.open_rgb Demo.png
  /\ nonempty Demo.npy
  /\ decodable Demo.open_rgb Demo.image_1000
  /\ nonempty Demo.signal_500
  /\ PyStr.contains "image3" (dispatch_name (Some "scan_image3.jpg")) = true
  /\ demo_handle (POST_predict (Some "scan_image3.jpg") Demo.png
                               (Some "ecg.npy") Demo.npy)
     = demo_handle (POST_predict (Some "scan_image3.jpg") Demo.image_1000
                                 None Demo.signal_500).
Proof.
  assert (Hd : decodable Demo.open_rgb Demo.png) by demo_valid.
  assert (Hn : nonempty Demo.npy) by demo_valid.
  assert (Hd' : decodable Demo.open_rgb Demo.image_1000) by demo_valid.
  assert (Hn' : nonempty Demo.signal_500) by demo_valid.
  repeat (split; [assumption || reflexivity|]).
  apply (canned_response_ignores_payloads
           Demo.Image Demo.open_rgb
           Demo.BitGenerator Demo.default_rng Demo.next_double
           (Some "scan_image3.jpg") Demo.png (Some "ecg.npy") Demo.npy
           Demo.image_1000 None Demo.signal_500 Hd Hn Hd' Hn').
  right. right. reflexivity.
Defined.

(* ================================================================== *)
(** ** What the response does not depend on *)

Lemma handle_two_environments
    (Image1 : Type) (open1 : list byte -> option Image1)
    (G1 : Type) (rng1 : Z -> G1) (draw1 : G1 -> float * G1)
    (Image2 : Type) (open2 : list byte -> option Image2)
    (G2 : Type) (rng2 : Z -> G2) (draw2 : G2 -> float * G2)
    cn cp ep en1 en2 :
  (open1 cp = None <-> open2 cp = None) ->
  fst (random draw1 (rng1 (seed_of cp ep)) (List.length CLASS_LABELS))
  = fst (random draw2 (rng2 (seed_of cp ep)) (List.length CLASS_LABELS)) ->
  handle open1 rng1 draw1 (POST_predict cn cp en1 ep)
  = handle open2 rng2 draw2 (POST_predict cn cp en2 ep).
Proof.
  intros Hagree Hdraws. destruct (open1 cp) as [img|] eqn:Hopen1.
  - assert (Hd1 : decodable open1 cp) by (unfold decodable; congruence).
    assert (Hd2 : decodable open2 cp).
    { unfold decodable. intros H2. apply Hagree in H2. discriminate. }
    destruct ep as [|b ep].
    + rewrite (handle_empty_signal _ open1 _ rng1 draw1 cn cp en1 Hd1).
      rewrite (handle_empty_signal _ open2 _ rng2 draw2 cn cp en2 Hd2).
      reflexivity.
    + assert (Hn : nonempty (b :: ep)) by discriminate.
      rewrite (handle_valid _ open1 _ rng1 draw1 cn cp en1 _ Hd1 Hn).
      rewrite (handle_valid _ open2 _ rng2 draw2 cn cp en2 _ Hd2 Hn).
      rewrite Hdraws. reflexivity.
  - assert (Hopen2 : open2 cp = None) by now apply Hagree.
    rewrite (handle_unreadable _ open1 _ rng1 draw1 cn cp en1 ep Hopen1).
    rewrite (handle_unreadable _ open2 _ rng2 draw2 cn cp en2 ep Hopen2).
    reflexivity.
Qed.

(** C7.  Two runs of the server, each with its own decoder, its own
    generator objects and its own sequence of other requests, answer a
    [/predict] request with the same image file name, the same image
    bytes and the same signal bytes with the same response (status and
    body, hence success flag, findings and probabilities).  All that is
    asked of the two runs is that the decoder gives the same verdict on
    these image bytes and that the generator seeded with the sum of the
    two payload lengths gives the same 14 draws; nothing else of a run
    reaches the response: not the decoded image, not the signal file
    name, not the generator on any other seed or beyond the 14th draw,
    not the requests served before or after. *)
Theorem predict_deterministic
    (Image1 : Type) (open1 : list byte -> option Image1)
    (G1 : Type) (rng1 : Z -> G1) (draw1 : G1 -> float * G1)
    (Image2 : Type) (open2 : list byte -> option Image2)
    (G2 : Type) (rng2 : Z -> G2) (draw2 : G2 -> float * G2)
    cn cp ep en1 en2 before1 after1 before2 after2 :
  (open1 cp = None <-> open2 cp = None) ->
  fst (random draw1
         (rng1 (Z.of_nat (List.length cp) + Z.of_nat (List.length ep))%Z) 14)
  = fst (random draw2
           (rng2 (Z.of_nat (List.length cp) + Z.of_nat (List.length ep))%Z)
           14) ->
  nth_error
    (serve open1 rng1 draw1 (before1 ++ POST_predict cn cp en1 ep :: after1))
    (List.length before1)
  = nth_error
      (serve open2 rng2 draw2 (before2 ++ POST_predict cn cp en2 ep :: after2))
      (List.length before2)
  /\ nth_error
       (serve open1 rng1 draw1
          (before1 ++ POST_predict cn cp en1 ep :: after1))
       (List.length before1)
     = Some (handle open1 rng1 draw1 (POST_predict cn cp en1 ep)).
Proof.
  intros Hagree Hdraws. rewrite !serve_nth. split; [|reflexivity].
  f_equal. now apply handle_two_environments.
Qed.

(** X5.  The generator is consulted on the fallback rule only: when the
    request fails validation or its file name selects a canned rule, the
    response is the same whatever generator the service runs with. *)
Theorem predict_generator_only_on_fallback
    (Image : Type) (open_rgb : list byte -> option Image)
    (G1 : Type) (rng1 : Z -> G1) (draw1 : G1 -> float * G1)
    (G2 : Type) (rng2 : Z -> G2) (draw2 : G2 -> float * G2)
    cn cp en ep :
  open_rgb cp = None \/ ep = [] \/
  PyStr.contains "image1" (dispatch_name cn) = true \/
  PyStr.contains "image2" (dispatch_name cn) = true \/
  PyStr.contains "image3" (dispatch_name cn) = true ->
  handle open_rgb rng1 draw1 (POST_predict cn cp en ep)
  = handle open_rgb rng2 draw2 (POST_predict cn cp en ep).
Proof.
  intros Hcase. destruct (open_rgb cp) as [img|] eqn:Hopen.
  - assert (Hd : decodable open_rgb cp) by (unfold decodable; congruence).
    destruct ep as [|b ep].
    + rewrite (handle_empty_signal _ open_rgb _ rng1 draw1 cn cp en Hd).
      rewrite (handle_empty_signal _ open_rgb _ rng2 draw2 cn cp en Hd).
      reflexivity.
    + assert (Hn : nonempty (b :: ep)) by discriminate.
      rewrite (handle_valid _ open_rgb _ rng1 draw1 cn cp en _ Hd Hn).
      rewrite (handle_valid _ open_rgb _ rng2 draw2 cn cp en _ Hd Hn).
      destruct Hcase as [H|[H|Hname]]; [discriminate|discriminate|].
      destruct (PyStr.contains "image1" (dispatch_name cn)
                || PyStr.contains "image2" (dispatch_name cn)) eqn:H12;
        [reflexivity|].
      apply orb_false_iff in H12. destruct H12 as [H1 H2].
      destruct Hname as [H|[H|H]]; try congruence.
      rewrite H. reflexivity.
  - rewrite (handle_unreadable _ open_rgb _ rng1 draw1 cn cp en ep Hopen).
    rewrite (handle_unreadable _ open_rgb _ rng2 draw2 cn cp en ep Hopen).
    reflexivity.
Qed.

(** X6.  The decoded image is used for nothing but the check that
    decoding succeeds: two decoders that agree on whether the image
    payload decodes give the same response, whatever image each returns. *)
Theorem predict_ignores_decoded_image
    (Image1 : Type) (open1 : list byte -> option Image1)
    (Image2 : Type) (open2 : list byte -> option Image2)
    (G : Type) (rng : Z -> G) (draw : G -> float * G)
    cn cp en ep :
  (open1 cp = None <-> open2 cp = None) ->
  handle open1 rng draw (POST_predict cn cp en ep)
  = handle open2 rng draw (POST_predict cn cp en ep).
Proof.
  intros Hagree. destruct (open1 cp) as [img|] eqn:Hopen1.
  - assert (Hd1 : decodable open1 cp) by (unfold decodable; congruence).
    assert (Hd2 : decodable open2 cp).
    { unfold decodable. intros H2. apply Hagree in H2. discriminate. }
    destruct ep as [|b ep].
    + rewrite (handle_empty_signal _ open1 _ rng draw cn cp en Hd1).
      rewrite (handle_empty_signal _ open2 _ rng draw cn cp en Hd2).
      reflexivity.
    + assert (Hn : nonempty (b :: ep)) by discriminate.
      rewrite (handle_valid _ open1 _ rng draw cn cp en _ Hd1 Hn).
      rewrite (handle_valid _ open2 _ rng draw cn cp en _ Hd2 Hn).
      reflexivity.
  - assert (Hopen2 : open2 cp = None) by now apply Hagree.
    rewrite (handle_unreadable _ open1 _ rng draw cn cp en ep Hopen1).
    rewrite (handle_unreadable _ open2 _ rng draw cn cp en ep Hopen2).
    reflexivity.
Qed.

(* ------------------------------------------------------------------ *)
(** *** The substring test of the dispatch *)

Lemma prefix_iff_append (sub s : string) :
  String.prefix sub s = true <-> exists post, s = (sub ++ post)%string.
Proof.
  revert s. induction sub as [|c sub IH]; intros s.
  - split; [intros _; now exists s|]. intros _. destruct s; reflexivity.
  - destruct s as [|d s]; simpl.
    + split; [discriminate|]. intros [post H]. discriminate H.
    + destruct (Ascii.ascii_dec c d) as [->|Hne].
      * rewrite IH. split; intros [post H]; exists post.
        -- now rewrite H.
        -- now injection H.
      * split; [discriminate|]. intros [post H]. injection H as Hc _.
        now contradiction Hne.
Qed.

(** X7.  The test ["sub in name"] that selects the scoring rule holds
    exactly when [name] is some prefix, then [sub], then some suffix; the
    occurrence can be anywhere in the name. *)
Theorem contains_iff_occurrence (sub s : string) :
  PyStr.contains sub s = true
  <-> exists pre post, s = (pre ++ sub ++ post)%string.
Proof.
  induction s as [|c s IH].
  - change (PyStr.contains sub "") with (String.prefix sub "" || false).
    rewrite orb_false_r, prefix_iff_append. split.
    + intros [post H]. now exists ""%string, post.
    + intros (pre & post & H). destruct pre as [|d pre]; [|discriminate H].
      now exists post.
  - change (PyStr.contains sub (String c s))
      with (String.prefix sub (String c s) || PyStr.contains sub s).
    rewrite orb_true_iff, IH, prefix_iff_append. split.
    + intros [[post H]|(pre & post & H)].
      * now exists ""%string, post.
      * exists (String c pre), post. simpl. now rewrite H.
    + intros (pre & post & H). destruct pre as [|d pre].
      * left. now exists post.
      * right. injection H as _ H. now exists pre, post.
Qed.

(* ------------------------------------------------------------------ *)
(** *** These statements at concrete requests *)

Lemma predict_case_insensitive_witness :
  dispatch_name (Some "Chest_IMAGE1.png") = dispatch_name (Some "chest_image1.PNG")
  /\ demo_handle (POST_predict (Some "Chest_IMAGE1.png") Demo.png
                               None Demo.npy)
     = demo_handle (POST_predict (Some "chest_image1.PNG") Demo.png
                                 None Demo.npy).
Proof.
  assert (Hname : dispatch_name (Some "Chest_IMAGE1.png")
                  = dispatch_name (Some "chest_image1.PNG")) by reflexivity.
  split; [exact Hname|].
  exact (proj1 (predict_case_insensitive
                  Demo.Image Demo.open_rgb
                  Demo.BitGenerator Demo.default_rng Demo.next_double
                  (Some "Chest_IMAGE1.png") (Some "chest_image1.PNG")
                  Demo.png None Demo.npy Hname)).
Defined.

Lemma fallback_depends_on_total_length_witness :
  decodable Demo.open_rgb Demo.image_1000
  /\ nonempty Demo.signal_500
  /\ decodable Demo.open_rgb (Demo.png ++ repeat x00 492)
  /\ nonempty (repeat x01 1000)
  /\ demo_handle (POST_predict (Some "random.bmp") Demo.image_1000
                               None Demo.signal_500)
     = demo_handle (POST_predict None (Demo.png ++ repeat x00 492)
                                 (Some "ecg.csv") (repeat x01 1000)).
Proof.
  assert (Hd : decodable Demo.open_rgb Demo.image_1000) by demo_valid.
  assert (Hn : nonempty Demo.signal_500) by demo_valid.
  assert (Hd' : decodable Demo.open_rgb (Demo.png ++ repeat x00 492))
    by demo_valid.
  assert (Hn' : nonempty (repeat x01 1000)) by demo_valid.
  repeat (split; [assumption|]).
  apply (proj1 (fallback_depends_on_total_length
                  Demo.Image Demo.open_rgb
                  Demo.BitGenerator Demo.default_rng Demo.next_double
                  (Some "random.bmp") Demo.image_1000 None Demo.signal_500
                  None (Demo.png ++ repeat x00 492)
                  (Some "ecg.csv") (repeat x01 1000)
                  Hd Hn ltac:(repeat split) Hd' Hn' ltac:(repeat split)
                  ltac:(reflexivity))).
Defined.


Lemma predict_generator_only_on_fallback_witness :
  PyStr.contains "image3" (dispatch_name (Some "scan_image3.jpg")) = true
  /\ demo_handle (POST_predict (Some "scan_image3.jpg") Demo.png
                               None Demo.npy)
     = handle Demo.open_rgb (fun seed : Z => seed)
              (fun g : Z => (0.5%float, (g + 1)%Z))
              (POST_predict (Some "scan_image3.jpg") Demo.png None Demo.npy).
Proof.
  split; [reflexivity|].
  apply (predict_generator_only_on_fallback
           Demo.Image Demo.open_rgb
           Demo.BitGenerator Demo.default_rng Demo.next_double
           Z (fun seed : Z => seed) (fun g : Z => (0.5%float, (g + 1)%Z))
           (Some "scan_image3.jpg") Demo.png None Demo.npy).
  right. right. right. right. reflexivity.
Defined.

Lemma predict_ignores_decoded_image_witness :
  (Demo.open_rgb Demo.png = None
   <-> (fun b : list byte =>
          option_map (@List.length byte) (Demo.open_rgb b)) Demo.png
       = None)
  /\ demo_handle (POST_predict (Some "random.bmp") Demo.png None Demo.npy)
     = handle (fun b : list byte =>
                 option_map (@List.length byte) (Demo.open_rgb b))
              Demo.default_rng Demo.next_double
              (POST_predict (Some "random.bmp") Demo.png None Demo.npy).
Proof.
  assert (Hagree :
            Demo.open_rgb Demo.png = None
            <-> (fun b : list byte =>
                   option_map (@List.length byte) (Demo.open_rgb b))
                  Demo.png = None)
    by (simpl; split; discriminate).
  split; [exact Hagree|].
  exact (predict_ignores_decoded_image
           Demo.Image Demo.open_rgb
           nat (fun b : list byte =>
                  option_map (@List.length byte) (Demo.open_rgb b))
           Demo.BitGenerator Demo.default_rng Demo.next_double
           (Some "random.bmp") Demo.png None Demo.npy Hagree).
Defined.


Lemma predict_deterministic_witness :
  (Demo.open_rgb Demo.png = None
   <-> option_map (@List.length byte) (Demo.open_rgb Demo.png) = None)
  /\ fst (random Demo.next_double (Demo.default_rng 14) 14)
     = fst (random (fun g : Z * nat =>
                      (fst (Demo.next_double (fst g)),
                       (snd (Demo.next_double (fst g)), S (snd g))))
                   ((fun seed : Z => (seed, O)) 14%Z) 14)
  /\ nth_error
       (serve Demo.open_rgb Demo.default_rng Demo.next_double
          ([GET_health]
             ++ POST_predict (Some "random.bmp") Demo.png (Some "a.npy")
                             Demo.npy
             :: []))
       1
     = nth_error
         (serve (fun b : list byte =>
                   option_map (@List.length byte) (Demo.open_rgb b))
                (fun seed : Z => (seed, O))
                (fun g : Z * nat =>
                   (fst (Demo.next_double (fst g)),
                    (snd (Demo.next_double (fst g)), S (snd g))))
                ([] ++ POST_predict (Some "random.bmp") Demo.png
                                    (Some "b.csv") Demo.npy
                    :: [GET_health]))
         0.
Proof.
  assert (Hagree :
            Demo.open_rgb Demo.png = None
            <-> option_map (@List.length byte) (Demo.open_rgb Demo.png) = None)
    by (simpl; split; discriminate).
  assert (Hdraws :
            fst (random Demo.next_double (Demo.default_rng 14) 14)
            = fst (random (fun g : Z * nat =>
                             (fst (Demo.next_double (fst g)),
                              (snd (Demo.next_double (fst g)), S (snd g))))
                          ((fun seed : Z => (seed, O)) 14%Z) 14))
    by reflexivity.
  split; [exact Hagree|]. split; [exact Hdraws|].
  exact (proj1 (predict_deterministic
                  Demo.Image Demo.open_rgb
                  Demo.BitGenerator Demo.default_rng Demo.next_double
                  nat (fun b : list byte =>
                         option_map (@List.length byte) (Demo.open_rgb b))
                  (Z * nat)%type (fun seed : Z => (seed, O))
                  (fun g : Z * nat =>
                     (fst (Demo.next_double (fst g)),
                      (snd (Demo.next_double (fst g)), S (snd g))))
                  (Some "random.bmp") Demo.png Demo.npy
                  (Some "a.npy") (Some "b.csv")
                  [GET_health] [] [] [GET_health]
                  Hagree Hdraws)).
Defined.
